(** * VectorModel_2: request actions, model controller and background jobs

    A shallow embedding of [src/actions.py], [src/vm_background_jobs/actions.py]
    and [src/vm_models/controller.py].

    Request parameters are JSON-like trees ([value]); a Python dict is an
    association list kept in insertion order, with [dict_set] replacing an
    existing key in place and appending a new one.  Python exceptions are
    modelled by a state-and-error monad [M]: a computation returns either the
    raised exception ([inl]) or its result ([inr]), together with the state
    left behind, so that effects performed before a raise stay visible. *)

From Stdlib Require Import String List Bool ZArith Lia.
Import ListNotations.
Open Scope string_scope.
Set Warnings "-register-all".

(** ** Python values *)

Inductive value : Type :=
| VNone
| VBool (b : bool)
| VInt (z : Z)
| VStr (s : string)
| VList (l : list value)
| VDict (d : list (string * value)).

Definition dict := list (string * value).

(** [d.get(k)] *)
Fixpoint dict_get (k : string) (d : dict) : option value :=
  match d with
  | [] => None
  | (k', v) :: d' => if String.eqb k k' then Some v else dict_get k d'
  end.

(** [k in d] for a dict *)
Definition dict_in (k : string) (d : dict) : bool :=
  match dict_get k d with Some _ => true | None => false end.

(** [d[k] = v]: in place when [k] is present, appended otherwise *)
Fixpoint dict_set (k : string) (v : value) (d : dict) : dict :=
  match d with
  | [] => [(k, v)]
  | (k', v') :: d' =>
      if String.eqb k k' then (k', v) :: d' else (k', v') :: dict_set k v d'
  end.

(** Python truthiness ([bool(v)]) *)
Definition truthy (v : value) : bool :=
  match v with
  | VNone => false
  | VBool b => b
  | VInt z => negb (Z.eqb z 0)
  | VStr s => negb (String.eqb s "")
  | VList l => match l with [] => false | _ => true end
  | VDict d => match d with [] => false | _ => true end
  end.

(** [d.get(k)] followed by a truth test, as in [if not parameters.get(k)] *)
Definition get_truthy (k : string) (d : dict) : bool :=
  match dict_get k d with Some v => truthy v | None => false end.

(** ** Exceptions and the effect monad *)

Inductive exn : Type :=
| ParameterNotFoundException (param : string)
| ModelException (param : string)
| KeyError (key : string)
| TypeError
| NotFoundError (id : value)
| DuplicateIdError (id : nat)
| InvalidTransitionError (id : nat)
| AttributeError
| RuntimeError (msg : string).

(** ** Background job records (the job subsystem of the spec, section 3) *)

Inductive status : Type := Pending | Running | Completed | Failed.

Record job : Type := mkJob {
  job_id : nat;
  job_status : status;
  start_date : option Z;
  end_date : option Z;
  worker_id : option nat;
  error_info : option string;
  payload_reference : dict
}.

(** The whole mutable world seen by a request: the job registry (insertion
    order), the id counter guarded by the registry, the queue of jobs handed
    off to workers and the clock read for timestamps. *)
Record state : Type := mkState {
  jobs : list job;
  next_id : nat;
  queue : list (nat * dict);
  clock : Z
}.

Definition M (A : Type) : Type := state -> (exn + A) * state.

Definition ret {A} (x : A) : M A := fun s => (inr x, s).

Definition bind {A B} (m : M A) (k : A -> M B) : M B :=
  fun s => match m s with
           | (inl e, s') => (inl e, s')
           | (inr x, s') => k x s'
           end.

Definition raise {A} (e : exn) : M A := fun s => (inl e, s).

(** [try: x = m ... except Exception as e: ...]: the outcome as a value *)
Definition try_catch {A} (m : M A) : M (exn + A) :=
  fun s => let (r, s') := m s in (inr r, s').

Definition get_state : M state := fun s => (inr s, s).
Definition put_state (s : state) : M unit := fun _ => (inr tt, s).

Notation "x <- m ;; k" := (bind m (fun x => k))
  (at level 61, m at next level, right associativity).

(** ** Python operations on values *)

(** [d[k]] for a dict *)
Definition getitem_d (d : dict) (k : string) : M value :=
  match dict_get k d with Some v => ret v | None => raise (KeyError k) end.

(** [v[k]] with a string key: only a dict supports it *)
Definition getitem (v : value) (k : string) : M value :=
  match v with VDict d => getitem_d d k | _ => raise TypeError end.

(** [k in v] with a string [k] *)
Definition py_in (k : string) (v : value) : M bool :=
  match v with
  | VDict d => ret (dict_in k d)
  | VList l =>
      ret (existsb (fun x => match x with VStr s => String.eqb s k | _ => false end) l)
  | VStr s => ret (match String.index 0 k s with Some _ => true | None => false end)
  | _ => raise TypeError
  end.

(** [v[k] = x] with a string key *)
Definition setitem (v : value) (k : string) (x : value) : M value :=
  match v with VDict d => ret (VDict (dict_set k x d)) | _ => raise TypeError end.

(** [p[k1][k2][k3] = x], the nested update the controller performs *)
Definition set3 (p : dict) (k1 k2 k3 : string) (x : value) : M dict :=
  m <- getitem_d p k1 ;;
  fp <- getitem m k2 ;;
  fp' <- setitem fp k3 x ;;
  m' <- setitem m k2 fp' ;;
  ret (dict_set k1 m' p).

Definition handler : Type := dict -> M value.

(** ** [src/vm_models/controller.py]

    The model classes ([get_model_class()], the model methods), the fitting
    filter class and [execute_in_background] live outside [src/]; they are
    parameters of the section, so that every statement below holds for any of
    them. *)
Module Controller.
Section Controller.

Variable Model : Type.
(** [get_model_class()(id)] *)
Variable model_class : value -> M Model.
Variable model_fit : Model -> value -> M value.
Variable model_predict : Model -> value -> M value.
Variable model_initialize : Model -> value -> M value.
Variable model_drop : Model -> M value.
Variable model_get_info : Model -> M value.
Variable model_drop_fitting : Model -> M value.
(** [get_fitting_filter_class()(f).get_value_as_model_parameter()] *)
Variable fitting_filter : value -> M value.
(** the decorator [vm_background_jobs.decorators.execute_in_background] *)
Variable execute_in_background : handler -> handler.

(** [_check_input_parameters] *)
Definition _check_input_parameters (func : handler) : handler :=
  fun parameters =>
    if negb (get_truthy "model" parameters)
    then raise (ParameterNotFoundException "model")
    else func parameters.

(** [_transform_model_parameters_for_fitting] *)
Definition _transform_model_parameters_for_fitting (func : handler) : handler :=
  fun parameters =>
    m <- getitem_d parameters "model" ;;
    has_fp <- py_in "fitting_parameters" m ;;
    if negb has_fp then raise (ParameterNotFoundException "fitting_parameters") else
    m <- getitem_d parameters "model" ;;
    fp <- getitem m "fitting_parameters" ;;
    has_filter <- py_in "filter" fp ;;
    parameters <- (if has_filter then
                     m <- getitem_d parameters "model" ;;
                     fp <- getitem m "fitting_parameters" ;;
                     input_filter <- getitem fp "filter" ;;
                     filter_value <- fitting_filter input_filter ;;
                     set3 parameters "model" "fitting_parameters" "filter" filter_value
                   else ret parameters) ;;
    parameters <- (if dict_in "job_id" parameters then
                     j <- getitem_d parameters "job_id" ;;
                     set3 parameters "model" "fitting_parameters" "job_id" j
                   else ret parameters) ;;
    func parameters.

(** [_get_model] *)
Definition _get_model (input_model : value) : M Model :=
  match input_model with
  | VDict d =>
      if negb (get_truthy "id" d)
      then raise (ModelException "id")
      else i <- getitem_d d "id" ;; model_class i
  | _ => raise AttributeError
  end.

(** the body of [fit], under its three decorators *)
Definition fit_body : handler :=
  fun parameters =>
    m <- getitem_d parameters "model" ;;
    model <- _get_model m ;;
    m <- getitem_d parameters "model" ;;
    has_fp <- py_in "fitting_parameters" m ;;
    if negb has_fp then raise (ModelException "fitting_parameters") else
    m <- getitem_d parameters "model" ;;
    fp <- getitem m "fitting_parameters" ;;
    model_fit model fp.

(** [@_check_input_parameters @_transform_model_parameters_for_fitting
     @execute_in_background def fit] *)
Definition fit : handler :=
  _check_input_parameters
    (_transform_model_parameters_for_fitting (execute_in_background fit_body)).

Definition predict_body : handler :=
  fun parameters =>
    if negb (dict_in "inputs" parameters)
    then raise (ParameterNotFoundException "inputs") else
    m <- getitem_d parameters "model" ;;
    model <- _get_model m ;;
    inputs <- getitem_d parameters "inputs" ;;
    model_predict model inputs.

Definition predict : handler := _check_input_parameters predict_body.

Definition initialize_body : handler :=
  fun parameters =>
    if negb (get_truthy "model" parameters)
    then raise (ParameterNotFoundException "model") else
    if negb (get_truthy "db" parameters)
    then raise (ParameterNotFoundException "db") else
    m <- getitem_d parameters "model" ;;
    model <- _get_model m ;;
    m <- getitem_d parameters "model" ;;
    model_initialize model m.

Definition initialize : handler := _check_input_parameters initialize_body.

Definition drop_body : handler :=
  fun parameters =>
    if negb (get_truthy "model" parameters)
    then raise (ParameterNotFoundException "model") else
    if negb (get_truthy "db" parameters)
    then raise (ParameterNotFoundException "db") else
    m <- getitem_d parameters "model" ;;
    model <- _get_model m ;;
    model_drop model.

Definition drop : handler := _check_input_parameters drop_body.

Definition get_info_body : handler :=
  fun parameters =>
    m <- getitem_d parameters "model" ;;
    model <- _get_model m ;;
    model_get_info model.

Definition get_info : handler := _check_input_parameters get_info_body.

(** [drop_fitting] carries no decorator *)
Definition drop_fitting : handler :=
  fun parameters =>
    m <- getitem_d parameters "model" ;;
    model <- _get_model m ;;
    model_drop_fitting model.

End Controller.
End Controller.

(** ** Action tables *)

(** lookup in a [dict[str, Callable]] *)
Fixpoint assoc {A : Type} (k : string) (l : list (string * A)) : option A :=
  match l with
  | [] => None
  | (k', x) :: l' => if String.eqb k k' then Some x else assoc k l'
  end.

(** [src/actions.py]; [vm_versions.get_version] and [general.test]/[ping]
    are outside [src/].  [get_version] may read the state (a file, the
    environment), so it is a computation, not a constant. *)
Module GeneralActions.
Section GeneralActions.

Variable get_version : M value.
Variable test : handler.
Variable ping : handler.

Definition _get_version : handler := fun parameters => get_version.
Definition _test : handler := fun parameters => test parameters.
Definition _ping : handler := fun parameters => ping parameters.

Definition get_actions : list (string * handler) :=
  [("test", _test); ("get_version", _get_version); ("ping", _ping)].

End GeneralActions.
End GeneralActions.

(** [src/vm_background_jobs/actions.py]; its [controller] module is outside
    [src/], so its two functions are parameters here. *)
Module JobActions.
Section JobActions.

Variable controller_get_jobs_info : handler.
Variable controller_delete_background_job : handler.

Definition _get_jobs_info : handler :=
  fun parameters => controller_get_jobs_info parameters.

Definition _delete_background_job : handler :=
  fun parameters =>
    result <- controller_delete_background_job parameters ;;
    ret result.

Definition get_actions : list (string * handler) :=
  [("jobs_get_info", _get_jobs_info); ("jobs_delete", _delete_background_job)].

End JobActions.
End JobActions.

(** ** The background job subsystem

    [vm_background_jobs.controller] and [vm_background_jobs.decorators] are
    not in [src/]; the definitions of this module follow the spec
    (sections 3, 4 and 7). *)
Module Jobs.

(** Modelled from the spec: the forward order of the job lifecycle
    (pending, running, then one of the terminal states). *)
Definition status_rank (st : status) : nat :=
  match st with Pending => 0 | Running => 1 | Completed | Failed => 2 end.

Fixpoint lookup_job (i : nat) (js : list job) : option job :=
  match js with
  | [] => None
  | j :: js' => if Nat.eqb (job_id j) i then Some j else lookup_job i js'
  end.

Definition ids (s : state) : list nat := map job_id (jobs s).

Definition set_jobs (js : list job) (s : state) : state :=
  mkState js (next_id s) (queue s) (clock s).

(** Modelled from the spec: [Job Registry.insert], failing with
    [DuplicateIdError] on a present id. *)
Definition registry_insert (r : job) : M unit :=
  fun s =>
    match lookup_job (job_id r) (jobs s) with
    | Some _ => (inl (DuplicateIdError (job_id r)), s)
    | None => (inr tt, set_jobs (jobs s ++ [r]) s)
    end.

(** Modelled from the spec: [Job Registry.update_status]: [NotFoundError] on an
    unknown id, [InvalidTransitionError] unless the status moves forward. *)
Definition registry_update (i : nat) (f : job -> job) : M unit :=
  fun s =>
    match lookup_job i (jobs s) with
    | None => (inl (NotFoundError (VInt (Z.of_nat i))), s)
    | Some j =>
        if Nat.ltb (status_rank (job_status j)) (status_rank (job_status (f j)))
        then (inr tt,
              set_jobs (map (fun j' => if Nat.eqb (job_id j') i then f j' else j')
                            (jobs s)) s)
        else (inl (InvalidTransitionError i), s)
    end.

(** Modelled from the spec: [Job Registry.delete], in any status, with
    [NotFoundError] on an absent id. *)
Definition registry_delete (i : nat) : M unit :=
  fun s =>
    match lookup_job i (jobs s) with
    | None => (inl (NotFoundError (VInt (Z.of_nat i))), s)
    | Some _ => (inr tt,
                 set_jobs (filter (fun j => negb (Nat.eqb (job_id j) i)) (jobs s)) s)
    end.

(** Modelled from the spec: [Job Launcher.launch] up to the hand-off: a fresh
    id from the counter, a pending record, the job queued for its own worker,
    the id returned at once. *)
Definition launch (parameters : dict) : M nat :=
  s <- get_state ;;
  let i := next_id s in
  _ <- registry_insert (mkJob i Pending None None None None parameters) ;;
  s <- get_state ;;
  _ <- put_state (mkState (jobs s) (S i) (queue s ++ [(i, parameters)]) (clock s)) ;;
  ret i.

(** Modelled from the spec: the execution wrapper [execute_in_background]:
    with the background indicator [flag] absent it is a pass-through, with
    it present it launches the handler and returns the job id. *)
Definition execute_in_background (flag : string) (h : handler) : handler :=
  fun parameters =>
    if dict_in flag parameters
    then i <- launch parameters ;; ret (VInt (Z.of_nat i))
    else h parameters.

Fixpoint take_queued (i : nat) (q : list (nat * dict)) : option (dict * list (nat * dict)) :=
  match q with
  | [] => None
  | (i', p) :: q' =>
      if Nat.eqb i' i then Some (p, q')
      else match take_queued i q' with
           | Some (p', q'') => Some (p', (i', p) :: q'')
           | None => None
           end
  end.

(** Modelled from the spec: launch step 4, the worker of job [i] (worker
    identifier [wid]) picks its parameters and marks the record running. *)
Definition worker_start (i wid : nat) : M dict :=
  s <- get_state ;;
  match take_queued i (queue s) with
  | None => raise (NotFoundError (VInt (Z.of_nat i)))
  | Some (p, q) =>
      _ <- put_state (mkState (jobs s) (next_id s) q (clock s)) ;;
      _ <- registry_update i (fun j =>
             mkJob (job_id j) Running (Some (clock s)) (end_date j) (Some wid)
                   (error_info j) (payload_reference j)) ;;
      ret p
  end.

(** Modelled from the spec: the text recorded as [error_info]. *)
Definition exn_text (e : exn) : string :=
  match e with
  | ParameterNotFoundException k => "parameter not found: " ++ k
  | ModelException k => "model error: " ++ k
  | KeyError k => "key error: " ++ k
  | TypeError => "type error"
  | NotFoundError _ => "job not found"
  | DuplicateIdError _ => "duplicate job id"
  | InvalidTransitionError _ => "invalid status transition"
  | AttributeError => "attribute error"
  | RuntimeError msg => msg
  end.

(** Modelled from the spec: launch steps 5 and 6, the record update after
    the callable returned or raised. *)
Definition worker_finish (i : nat) (outcome : exn + value) : M unit :=
  s <- get_state ;;
  match outcome with
  | inr _ =>
      registry_update i (fun j =>
        mkJob (job_id j) Completed (start_date j) (Some (clock s)) (worker_id j)
              None (payload_reference j))
  | inl e =>
      registry_update i (fun j =>
        mkJob (job_id j) Failed (start_date j) (Some (clock s)) (worker_id j)
              (Some (exn_text e)) (payload_reference j))
  end.

(** Modelled from the spec: the whole worker of job [i]; the callable's
    failure is caught and recorded. *)
Definition run_worker (h : handler) (wid i : nat) : M unit :=
  p <- worker_start i wid ;;
  outcome <- try_catch (h p) ;;
  worker_finish i outcome.

(** Modelled from the spec: how the dispatch layer reports an error. *)
Definition reported_error (e : exn) : value :=
  VDict [("status", VStr "error"); ("error_text", VStr (exn_text e))].

(** Modelled from the spec: the record a requested id refers to.  Records
    are keyed by the counter's natural numbers, so only a non-negative
    integer can name one; any other value refers to no record. *)
Definition job_key (v : value) : option nat :=
  match v with
  | VInt z => if Z.leb 0 z then Some (Z.to_nat z) else None
  | _ => None
  end.

(** Modelled from the spec: [controller.delete_background_job], delegating
    to [Job Registry.delete] and reporting [NotFoundError] as a result.  A
    request without ['id'] is refused by parameter validation before the
    registry is consulted. *)
Definition delete_background_job : handler :=
  fun parameters =>
    match dict_get "id" parameters with
    | Some v =>
        r <- try_catch (match job_key v with
                        | Some i => registry_delete i
                        | None => raise (NotFoundError v)
                        end) ;;
        match r with
        | inr _ => ret (VStr "deleted")
        | inl e => ret (reported_error e)
        end
    | None => raise (ParameterNotFoundException "id")
    end.

End Jobs.

(** ** Concurrent use of the registry

    Modelled from the spec (section 5): request threads and workers act on
    the registry by linearizable operations, so a concurrent run is an
    interleaving of atomic steps.  A launch (id allocation and insertion, a
    registry transaction) is one step; a worker's start and finish are two
    separate steps, and the callable that runs in between never writes the
    registry, so its outcome enters through [worker_finish]. *)
Module Concurrency.
Import Jobs.

Inductive label : Type :=
| LLaunch (i : nat)
| LDelete (i : nat)
| LOther.

Inductive step : state -> label -> state -> Prop :=
| step_launch (p : dict) (s s' : state) (i : nat) :
    launch p s = (inr i, s') -> step s (LLaunch i) s'
| step_launch_error (p : dict) (s s' : state) (e : exn) :
    launch p s = (inl e, s') -> step s LOther s'
| step_start (i wid : nat) (s s' : state) (r : exn + dict) :
    worker_start i wid s = (r, s') -> step s LOther s'
| step_finish (i : nat) (o : exn + value) (s s' : state) (r : exn + unit) :
    worker_finish i o s = (r, s') -> step s LOther s'
| step_delete (i : nat) (s s' : state) :
    registry_delete i s = (inr tt, s') -> step s (LDelete i) s'
| step_delete_error (i : nat) (s s' : state) (e : exn) :
    registry_delete i s = (inl e, s') -> step s LOther s'
| step_tick (s : state) :
    step s LOther (mkState (jobs s) (next_id s) (queue s) (clock s + 1)).

(** runs from a state, the most recent label first *)
Inductive run : state -> list label -> state -> Prop :=
| run_nil (s : state) : run s [] s
| run_cons (s0 s s' : state) (ls : list label) (l : label) :
    run s0 ls s -> step s l s' -> run s0 (l :: ls) s'.

Definition launched (ls : list label) : list nat :=
  flat_map (fun l => match l with LLaunch i => [i] | _ => [] end) ls.

Definition deleted (ls : list label) : list nat :=
  flat_map (fun l => match l with LDelete i => [i] | _ => [] end) ls.

(** the empty registry a service starts with *)
Definition init : state := mkState [] 0 [] 0.

(** The registry invariant along a run [ls]: launched ids are below the
    counter and pairwise distinct, registry ids are pairwise distinct and are
    exactly the launched ids not deleted since, only launched ids get
    deleted, and queued jobs carry ids below the counter. *)
Definition inv (ls : list label) (s : state) : Prop :=
  (forall i, In i (launched ls) -> i < next_id s) /\
  NoDup (launched ls) /\
  NoDup (ids s) /\
  (forall i, In i (ids s) <-> In i (launched ls) /\ ~ In i (deleted ls)) /\
  (forall i, In i (deleted ls) -> In i (launched ls)) /\
  (forall i p, In (i, p) (queue s) -> i < next_id s).

End Concurrency.

(** [p[k1][k2][k3]] read back, when every step is a dict lookup *)
Definition get_path3 (p : dict) (k1 k2 k3 : string) : option value :=
  match dict_get k1 p with
  | Some (VDict d1) =>
      match dict_get k2 d1 with
      | Some (VDict d2) => dict_get k3 d2
      | _ => None
      end
  | _ => None
  end.

(** ** Small tests of the embedding *)

Example dict_set_replaces :
  dict_set "a" (VInt 2) [("a", VInt 1); ("b", VInt 3)] = [("a", VInt 2); ("b", VInt 3)].
Proof. reflexivity. Qed.

Example py_in_string_is_substring :
  py_in "fit" (VStr "xfitx") Concurrency.init = (inr true, Concurrency.init).
Proof. reflexivity. Qed.

Example empty_model_is_falsy :
  get_truthy "model" [("model", VDict [])] = false.
Proof. reflexivity. Qed.

Example launch_from_init :
  Jobs.launch [] Concurrency.init =
  (inr 0, mkState [mkJob 0 Pending None None None None []] 1 [(0, [])] 0).
Proof. reflexivity. Qed.

(** ** Lemmas on dicts and the registry *)

Lemma dict_get_set_same (k : string) (v : value) (d : dict) :
  dict_get k (dict_set k v d) = Some v.
Proof.
  induction d as [|[k' v'] d IH]; simpl.
  - rewrite String.eqb_refl. reflexivity.
  - destruct (String.eqb k k') eqn:E; simpl.
    + apply String.eqb_eq in E. subst. rewrite String.eqb_refl. reflexivity.
    + rewrite E. exact IH.
Qed.

Lemma dict_get_set_other (k k' : string) (v : value) (d : dict) :
  String.eqb k' k = false -> dict_get k' (dict_set k v d) = dict_get k' d.
Proof.
  intros Hne. induction d as [|[k0 v0] d IH]; simpl.
  - rewrite Hne. reflexivity.
  - destruct (String.eqb k k0) eqn:E; simpl.
    + apply String.eqb_eq in E. subst. rewrite Hne. reflexivity.
    + destruct (String.eqb k' k0); [reflexivity | exact IH].
Qed.

Lemma bind_ret_r {A} (m : M A) (s : state) : (x <- m ;; ret x) s = m s.
Proof. unfold bind, ret. destruct (m s) as [[e|x] s']; reflexivity. Qed.

(** ** The model controller *)

Section ControllerFacts.

Variable Model : Type.
Variable model_class : value -> M Model.
Variable model_fit : Model -> value -> M value.
Variable model_predict : Model -> value -> M value.
Variable model_initialize : Model -> value -> M value.
Variable model_drop : Model -> M value.
Variable model_get_info : Model -> M value.
Variable model_drop_fitting : Model -> M value.
Variable fitting_filter : value -> M value.
Variable execute_in_background : handler -> handler.

(** C2: when [parameters.get('model')] is absent or falsy, [fit],
    [predict], [initialize], [drop] and [get_info] raise
    [ParameterNotFoundException] and leave the state untouched, whatever the
    decorated body (any body, any model class, any background wrapper): the
    check runs before the body, which is never invoked. *)
Theorem model_check_precedes_body (parameters : dict) (s : state) :
  get_truthy "model" parameters = false ->
  (forall body : handler,
      Controller._check_input_parameters body parameters s
      = (inl (ParameterNotFoundException "model"), s)) /\
  Controller.fit Model model_class model_fit fitting_filter execute_in_background
    parameters s = (inl (ParameterNotFoundException "model"), s) /\
  Controller.predict Model model_class model_predict parameters s
    = (inl (ParameterNotFoundException "model"), s) /\
  Controller.initialize Model model_class model_initialize parameters s
    = (inl (ParameterNotFoundException "model"), s) /\
  Controller.drop Model model_class model_drop parameters s
    = (inl (ParameterNotFoundException "model"), s) /\
  Controller.get_info Model model_class model_get_info parameters s
    = (inl (ParameterNotFoundException "model"), s).
Proof.
  intros Hm.
  unfold Controller.fit, Controller.predict, Controller.initialize,
    Controller.drop, Controller.get_info, Controller._check_input_parameters.
  rewrite Hm. simpl. repeat split; reflexivity.
Qed.

(** C9: [predict] with a truthy ['model'] but no ['inputs'] key raises
    [ParameterNotFoundException] in the state it started from, before the
    model class is called: the outcome is the same for every model class and
    every [predict] method. *)
Theorem predict_requires_inputs (parameters : dict) (s : state) :
  get_truthy "model" parameters = true ->
  dict_in "inputs" parameters = false ->
  Controller.predict Model model_class model_predict parameters s
  = (inl (ParameterNotFoundException "inputs"), s).
Proof.
  intros Hm Hi.
  unfold Controller.predict, Controller._check_input_parameters,
    Controller.predict_body.
  rewrite Hm, Hi. reflexivity.
Qed.

End ControllerFacts.

(** ** The action tables *)

(** C3: the action registered under ['jobs_get_info'] returns exactly what
    the job controller's [get_jobs_info] returns, for any parameters and
    state. *)
Theorem jobs_get_info_delegates
    (get_jobs_info delete_background_job : handler) (parameters : dict) (s : state) :
  exists action,
    assoc "jobs_get_info" (JobActions.get_actions get_jobs_info delete_background_job)
      = Some action /\
    action parameters s = get_jobs_info parameters s.
Proof.
  eexists. split; [reflexivity | reflexivity].
Qed.

(** A requested id that names no record finds nothing in the registry. *)
Lemma job_key_absent (v : value) (s : state) (i : nat) :
  (forall j, In j (jobs s) -> VInt (Z.of_nat (job_id j)) <> v) ->
  Jobs.job_key v = Some i ->
  Jobs.lookup_job i (jobs s) = None /\ v = VInt (Z.of_nat i).
Proof.
  intros Habs Hk.
  destruct v as [| | z | | |]; try discriminate.
  cbv [Jobs.job_key] in Hk. destruct (Z.leb_spec 0 z) as [Hz|Hz]; [|discriminate].
  injection Hk as <-. rewrite Z2Nat.id by exact Hz. split; [|reflexivity].
  induction (jobs s) as [|j js IH]; [reflexivity|].
  simpl. destruct (Nat.eqb_spec (job_id j) (Z.to_nat z)) as [E|E].
  - exfalso. apply (Habs j (or_introl eq_refl)). rewrite E, Z2Nat.id by exact Hz.
    reflexivity.
  - apply IH. intros j' Hj'. apply Habs. right. exact Hj'.
Qed.

(** C4: the action registered under ['jobs_delete'] returns exactly what the
    job controller's [delete_background_job] returns; with the controller of
    the spec, a requested id that names no record of the registry (an
    unknown number, a negative number, a string, ...) comes back as a
    reported [NotFoundError] for that id, not as a raised exception, and the
    registry is left as it was. *)
Theorem jobs_delete_delegates_and_reports :
  (forall (get_jobs_info delete_background_job : handler) (parameters : dict) (s : state),
     exists action,
       assoc "jobs_delete" (JobActions.get_actions get_jobs_info delete_background_job)
         = Some action /\
       action parameters s = delete_background_job parameters s) /\
  (forall (get_jobs_info : handler) (parameters : dict) (s : state) (v : value),
     dict_get "id" parameters = Some v ->
     (forall j, In j (jobs s) -> VInt (Z.of_nat (job_id j)) <> v) ->
     exists action,
       assoc "jobs_delete" (JobActions.get_actions get_jobs_info Jobs.delete_background_job)
         = Some action /\
       action parameters s = (inr (Jobs.reported_error (NotFoundError v)), s)).
Proof.
  split.
  - intros gji dbj p s. eexists. split; [reflexivity|].
    apply bind_ret_r.
  - intros gji p s v Hid Habs. eexists. split; [reflexivity|].
    unfold JobActions._delete_background_job. rewrite bind_ret_r.
    unfold Jobs.delete_background_job. rewrite Hid.
    destruct (Jobs.job_key v) as [i|] eqn:Hk.
    + destruct (job_key_absent v s i Habs Hk) as [Hnone ->].
      unfold bind, try_catch, Jobs.registry_delete. rewrite Hnone. reflexivity.
    + reflexivity.
Qed.

(** C8: the action registered under ['get_version'] gives the same outcome
    (result and state) for any two parameter dicts. *)
Theorem get_version_ignores_parameters
    (get_version : M value) (test ping : handler) (p1 p2 : dict) (s : state) :
  exists action,
    assoc "get_version" (GeneralActions.get_actions get_version test ping) = Some action /\
    action p1 s = action p2 s.
Proof.
  eexists. split; reflexivity.
Qed.

(** ** Fitting parameters *)

Lemma set3_dicts (p : dict) (k1 k2 k3 : string) (x : value) (d1 d2 : dict) (s : state) :
  dict_get k1 p = Some (VDict d1) ->
  dict_get k2 d1 = Some (VDict d2) ->
  set3 p k1 k2 k3 x s
  = (inr (dict_set k1 (VDict (dict_set k2 (VDict (dict_set k3 x d2)) d1)) p), s).
Proof.
  intros H1 H2. unfold set3, bind, getitem_d at 1, ret.
  rewrite H1. unfold getitem, getitem_d. rewrite H2. reflexivity.
Qed.

Lemma get_path3_set3 (p d1 d2 : dict) (k1 k2 k3 : string) (x : value) :
  get_path3 (dict_set k1 (VDict (dict_set k2 (VDict (dict_set k3 x d2)) d1)) p) k1 k2 k3
  = Some x.
Proof. unfold get_path3. rewrite !dict_get_set_same. reflexivity. Qed.

Section FitJobId.
Variable Model : Type.
Variable model_class : value -> M Model.
Variable model_fit : Model -> value -> M value.
Variable fitting_filter : value -> M value.
Variable execute_in_background : handler -> handler.

(** C1: for request parameters holding ['job_id'] whose ['model'] dict holds
    a ['fitting_parameters'] dict, [fit] hands to the wrapped handler
    ([execute_in_background] applied to the body of [fit]) parameters whose
    ['model']['fitting_parameters']['job_id'] is the top-level ['job_id'];
    the only other outcome is that converting a ['filter'] entry raised, and
    then the wrapped handler is never called. *)
Theorem fit_propagates_job_id (parameters : dict) (s : state)
    (model fp : dict) (j : value) :
  dict_get "model" parameters = Some (VDict model) ->
  dict_get "fitting_parameters" model = Some (VDict fp) ->
  dict_get "job_id" parameters = Some j ->
  (exists parameters' s',
     Controller.fit Model model_class model_fit fitting_filter execute_in_background
       parameters s
     = execute_in_background
         (Controller.fit_body Model model_class model_fit) parameters' s' /\
     get_path3 parameters' "model" "fitting_parameters" "job_id" = Some j) \/
  (exists f e s',
     dict_get "filter" fp = Some f /\
     fitting_filter f s = (inl e, s') /\
     Controller.fit Model model_class model_fit fitting_filter execute_in_background
       parameters s = (inl e, s')).
Proof.
  intros Hm Hfp Hj.
  assert (Htruthy : get_truthy "model" parameters = true).
  { unfold get_truthy. rewrite Hm. destruct model; [discriminate Hfp | reflexivity]. }
  assert (Hjid : forall v, dict_get "job_id" (dict_set "model" v parameters) = Some j).
  { intros v. rewrite dict_get_set_other by reflexivity. exact Hj. }
  unfold Controller.fit, Controller._check_input_parameters.
  rewrite Htruthy.
  cbv [negb Controller._transform_model_parameters_for_fitting bind ret
       getitem_d getitem py_in dict_in].
  rewrite Hm, Hfp.
  destruct (dict_get "filter" fp) as [f|] eqn:Hf.
  - destruct (fitting_filter f s) as [[e|v] s1] eqn:Hconv.
    + right. exists f, e, s1. auto.
    + left.
      rewrite (set3_dicts parameters _ _ _ _ model fp s1 Hm Hfp).
      rewrite Hjid.
      rewrite (set3_dicts _ _ _ _ _ (dict_set "fitting_parameters"
                 (VDict (dict_set "filter" v fp)) model) (dict_set "filter" v fp) s1)
        by (rewrite dict_get_set_same; reflexivity).
      eexists; eexists; split; [reflexivity|].
      apply get_path3_set3.
  - left. rewrite Hj.
    rewrite (set3_dicts parameters _ _ _ _ model fp s Hm Hfp).
    eexists; eexists; split; [reflexivity|].
    apply get_path3_set3.
Qed.
End FitJobId.

(** ** Model resolution *)

Lemma dict_set_twice (k : string) (v1 v2 : value) (d : dict) :
  dict_set k v2 (dict_set k v1 d) = dict_set k v2 d.
Proof.
  induction d as [|[k' v'] d IH]; simpl.
  - rewrite String.eqb_refl. reflexivity.
  - destruct (String.eqb k k') eqn:E; simpl; rewrite E; [reflexivity|].
    rewrite IH. reflexivity.
Qed.

Lemma dict_set_get (k : string) (v : value) (d : dict) :
  dict_get k d = Some v -> dict_set k v d = d.
Proof.
  induction d as [|[k' v'] d IH]; simpl; [discriminate|].
  destruct (String.eqb k k') eqn:E.
  - intros H. injection H as ->. apply String.eqb_eq in E. subst. reflexivity.
  - intros H. rewrite (IH H). reflexivity.
Qed.

(** The fitting transform only rewrites [parameters['model']['fitting_parameters']]
    when the conversion of the filter it holds, if any, succeeds. *)
Lemma transform_shape (fitting_filter : value -> M value) (func : handler)
    (parameters model fp : dict) (s : state) :
  dict_get "model" parameters = Some (VDict model) ->
  dict_get "fitting_parameters" model = Some (VDict fp) ->
  (forall f, dict_get "filter" fp = Some f -> exists v s', fitting_filter f s = (inr v, s')) ->
  exists fp' s',
    Controller._transform_model_parameters_for_fitting fitting_filter func parameters s
    = func (dict_set "model" (VDict (dict_set "fitting_parameters" (VDict fp') model))
              parameters) s'.
Proof.
  intros Hm Hfp Hconv.
  cbv [Controller._transform_model_parameters_for_fitting bind ret
       getitem_d getitem py_in dict_in negb].
  rewrite Hm, Hfp.
  destruct (dict_get "filter" fp) as [f|] eqn:Hf.
  - destruct (Hconv f eq_refl) as (v & s1 & Hv). rewrite Hv.
    rewrite (set3_dicts parameters _ _ _ _ model fp s1 Hm Hfp).
    rewrite dict_get_set_other by reflexivity.
    destruct (dict_get "job_id" parameters) as [j|] eqn:Hj.
    + rewrite (set3_dicts _ _ _ _ _ (dict_set "fitting_parameters"
                 (VDict (dict_set "filter" v fp)) model) (dict_set "filter" v fp) s1)
        by (rewrite dict_get_set_same; reflexivity).
      rewrite !dict_set_twice. eexists; eexists; reflexivity.
    + eexists; eexists; reflexivity.
  - destruct (dict_get "job_id" parameters) as [j|] eqn:Hj.
    + rewrite (set3_dicts parameters _ _ _ _ model fp s Hm Hfp).
      eexists; eexists; reflexivity.
    + exists fp, s.
      rewrite (dict_set_get _ _ _ Hfp), (dict_set_get _ _ _ Hm). reflexivity.
Qed.

Section ModelResolution.

Variable Model : Type.
Variable model_class : value -> M Model.
Variable model_fit : Model -> value -> M value.
Variable model_predict : Model -> value -> M value.
Variable model_initialize : Model -> value -> M value.
Variable model_drop : Model -> M value.
Variable model_get_info : Model -> M value.
Variable model_drop_fitting : Model -> M value.
Variable fitting_filter : value -> M value.

Lemma get_model_no_id (model : dict) (s : state) :
  get_truthy "id" model = false ->
  Controller._get_model Model model_class (VDict model) s
  = (inl (ModelException "id"), s).
Proof. intros H. unfold Controller._get_model. rewrite H. reflexivity. Qed.

(** The fitting transform hands its handler only requests whose ['model'] is
    the original model dict with its ['fitting_parameters'] entry replaced:
    two handlers that agree on requests whose model dict lacks a truthy
    ['id'] give the same outcome on such a request. *)
Lemma transform_congr (f1 f2 : handler) (parameters model : dict) (s : state) :
  dict_get "model" parameters = Some (VDict model) ->
  get_truthy "id" model = false ->
  (forall p' model' s', dict_get "model" p' = Some (VDict model') ->
     get_truthy "id" model' = false -> f1 p' s' = f2 p' s') ->
  Controller._transform_model_parameters_for_fitting fitting_filter f1 parameters s
  = Controller._transform_model_parameters_for_fitting fitting_filter f2 parameters s.
Proof.
  intros Hm Hid Hf.
  cbv [Controller._transform_model_parameters_for_fitting bind ret
       getitem_d getitem py_in negb set3 setitem raise].
  rewrite Hm.
  repeat (first
    [ reflexivity
    | progress cbv beta iota
    | progress rewrite ?Hm, ?dict_get_set_same
    | discriminate
    | eapply Hf; [exact Hm | exact Hid]
    | eapply Hf; [rewrite dict_get_set_same; reflexivity
                |unfold get_truthy in *; rewrite !dict_get_set_other by reflexivity;
                 exact Hid]
    | match goal with
      | |- context [match ?x with _ => _ end] =>
          first [ is_var x
                | lazymatch x with
                  | dict_get _ _ => idtac
                  | dict_in _ _ => idtac
                  | fitting_filter _ _ => idtac
                  | String.index _ _ _ => idtac
                  | existsb _ _ => idtac
                  end ];
          destruct x eqn:?
      end ]).
Qed.

(** C10 (amended): [_get_model] raises [ModelException] without calling the
    model class when the model parameters lack a truthy ['id'], and no
    operation ever calls the model class for such a model dict: its outcome
    is the same for every model class.  [drop_fitting], which has no earlier
    check, raises [ModelException] for every such dict.  The other
    operations raise it once their own earlier checks pass: a non-empty
    model dict (a truthy ['model']), ['inputs'] present ([predict]), a truthy
    ['db'] ([initialize], [drop]), and for [fit], run synchronously
    (background indicator absent), a ['fitting_parameters'] dict whose
    ['filter'] entry, if present, converts without error. *)
Theorem model_without_id_raises (model : dict) :
  get_truthy "id" model = false ->
  (forall s, Controller._get_model Model model_class (VDict model) s
             = (inl (ModelException "id"), s)) /\
  (forall (parameters : dict) (s : state),
     dict_get "model" parameters = Some (VDict model) ->
     Controller.drop_fitting Model model_class model_drop_fitting parameters s
       = (inl (ModelException "id"), s) /\
     (model <> [] ->
       (dict_in "inputs" parameters = true ->
          Controller.predict Model model_class model_predict parameters s
          = (inl (ModelException "id"), s)) /\
       (get_truthy "db" parameters = true ->
          Controller.initialize Model model_class model_initialize parameters s
          = (inl (ModelException "id"), s) /\
          Controller.drop Model model_class model_drop parameters s
          = (inl (ModelException "id"), s)) /\
       Controller.get_info Model model_class model_get_info parameters s
         = (inl (ModelException "id"), s) /\
       (forall (flag : string) (fp : dict),
          dict_in flag parameters = false ->
          dict_get "fitting_parameters" model = Some (VDict fp) ->
          (forall f, dict_get "filter" fp = Some f ->
             exists v s', fitting_filter f s = (inr v, s')) ->
          fst (Controller.fit Model model_class model_fit fitting_filter
                 (Jobs.execute_in_background flag) parameters s)
          = inl (ModelException "id"))) /\
     (forall model_class' : value -> M Model,
        Controller.predict Model model_class model_predict parameters s
        = Controller.predict Model model_class' model_predict parameters s /\
        Controller.initialize Model model_class model_initialize parameters s
        = Controller.initialize Model model_class' model_initialize parameters s /\
        Controller.drop Model model_class model_drop parameters s
        = Controller.drop Model model_class' model_drop parameters s /\
        Controller.get_info Model model_class model_get_info parameters s
        = Controller.get_info Model model_class' model_get_info parameters s /\
        Controller.drop_fitting Model model_class model_drop_fitting parameters s
        = Controller.drop_fitting Model model_class' model_drop_fitting parameters s /\
        (forall flag : string,
           Controller.fit Model model_class model_fit fitting_filter
             (Jobs.execute_in_background flag) parameters s
           = Controller.fit Model model_class' model_fit fitting_filter
               (Jobs.execute_in_background flag) parameters s))).
Proof.
  intros Hid. split; [intros s; apply get_model_no_id; exact Hid|].
  intros parameters s Hm.
  split; [|split].
  - cbv [Controller.drop_fitting bind ret getitem_d].
    rewrite Hm, get_model_no_id by exact Hid. reflexivity.
  - intros Hne.
    assert (Ht : get_truthy "model" parameters = true).
    { unfold get_truthy. rewrite Hm. destruct model; [congruence | reflexivity]. }
    split; [|split; [|split]].
    + intros Hi.
      cbv [Controller.predict Controller._check_input_parameters
           Controller.predict_body bind ret getitem_d negb].
      rewrite Ht, Hi, Hm, get_model_no_id by exact Hid. reflexivity.
    + intros Hdb. split.
      * cbv [Controller.initialize Controller._check_input_parameters
             Controller.initialize_body bind ret getitem_d negb].
        rewrite Ht, Hdb, Hm, get_model_no_id by exact Hid. reflexivity.
      * cbv [Controller.drop Controller._check_input_parameters
             Controller.drop_body bind ret getitem_d negb].
        rewrite Ht, Hdb, Hm, get_model_no_id by exact Hid. reflexivity.
    + cbv [Controller.get_info Controller._check_input_parameters
           Controller.get_info_body bind ret getitem_d negb].
      rewrite Ht, Hm, get_model_no_id by exact Hid. reflexivity.
    + intros flag fp Hbg Hfp Hconv.
      assert (Hflag : String.eqb flag "model" = false).
      { destruct (String.eqb_spec flag "model") as [->|Hneq]; [|reflexivity].
        unfold dict_in in Hbg. rewrite Hm in Hbg. discriminate. }
      unfold Controller.fit, Controller._check_input_parameters.
      rewrite Ht. cbv beta iota delta [negb].
      destruct (transform_shape fitting_filter
                  (Jobs.execute_in_background flag
                     (Controller.fit_body Model model_class model_fit))
                  parameters model fp s Hm Hfp Hconv) as (fp' & s' & ->).
      unfold Jobs.execute_in_background.
      replace (dict_in flag _) with false.
      2:{ unfold dict_in in *. rewrite dict_get_set_other by exact Hflag.
          destruct (dict_get flag parameters); congruence. }
      cbv [Controller.fit_body bind ret getitem_d].
      rewrite dict_get_set_same, get_model_no_id; [reflexivity|].
      unfold get_truthy in *. rewrite dict_get_set_other by reflexivity. exact Hid.
  - intros mc'.
    split; [|split; [|split; [|split; [|split]]]].
    6:{ intros flag. unfold Controller.fit, Controller._check_input_parameters.
        destruct (get_truthy "model" parameters); [|reflexivity].
        cbv beta iota delta [negb].
        apply (transform_congr _ _ parameters model s Hm Hid).
        intros p' m' s' Hm' Hid'.
        unfold Jobs.execute_in_background.
        destruct (dict_in flag p'); [reflexivity|].
        cbv [Controller.fit_body Controller._get_model bind ret getitem_d negb raise].
        rewrite Hm'. cbv beta iota. rewrite Hid'. reflexivity. }
    all: cbv [Controller.predict Controller.initialize Controller.drop Controller.get_info
           Controller.drop_fitting Controller._check_input_parameters
           Controller.predict_body Controller.initialize_body Controller.drop_body
           Controller.get_info_body Controller._get_model bind ret getitem_d negb raise].
    all: rewrite Hm; cbv beta iota; rewrite ?Hid; cbv beta iota.
    all: destruct (get_truthy "model" parameters); cbv beta iota.
    all: try destruct (dict_in "inputs" parameters); try destruct (get_truthy "db" parameters); cbv beta iota.
    all: reflexivity.
Qed.

End ModelResolution.

(** C10: the claim as stated fails: [predict] with a truthy model dict that
    has no ['id'] but a request without ['inputs'] raises
    [ParameterNotFoundException], not [ModelException]. *)
Lemma model_without_id_claim_fails :
  Controller.predict unit (fun _ => ret tt) (fun _ _ => ret VNone)
    [("model", VDict [("name", VStr "m")])] Concurrency.init
  = (inl (ParameterNotFoundException "inputs"), Concurrency.init) /\
  fst (Controller.predict unit (fun _ => ret tt) (fun _ _ => ret VNone)
         [("model", VDict [("name", VStr "m")])] Concurrency.init)
  <> inl (ModelException "id").
Proof. split; [reflexivity | discriminate]. Qed.

(** ** The job registry *)

Module JobFacts.
Import Jobs Concurrency.

Lemma lookup_job_None (i : nat) (js : list job) :
  lookup_job i js = None <-> ~ In i (map job_id js).
Proof.
  induction js as [|j js IH]; simpl; [tauto|].
  destruct (Nat.eqb (job_id j) i) eqn:E.
  - apply Nat.eqb_eq in E. split; [discriminate | intros H; exfalso; auto].
  - apply Nat.eqb_neq in E. rewrite IH. intuition.
Qed.

Lemma lookup_job_Some (i : nat) (js : list job) (j : job) :
  lookup_job i js = Some j -> job_id j = i /\ In i (map job_id js).
Proof.
  induction js as [|j' js IH]; simpl; [discriminate|].
  destruct (Nat.eqb (job_id j') i) eqn:E.
  - intros H. injection H as <-. apply Nat.eqb_eq in E. auto.
  - intros H. destruct (IH H). auto.
Qed.

Lemma lookup_job_app_last (i : nat) (js : list job) (r : job) :
  lookup_job i js = None ->
  lookup_job i (js ++ [r]) = if Nat.eqb (job_id r) i then Some r else None.
Proof.
  induction js as [|j js IH]; simpl; [reflexivity|].
  destruct (Nat.eqb (job_id j) i); [discriminate | exact IH].
Qed.

Lemma map_ids_update (i : nat) (f : job -> job) (js : list job) :
  (forall j, job_id (f j) = job_id j) ->
  map job_id (map (fun j' => if Nat.eqb (job_id j') i then f j' else j') js)
  = map job_id js.
Proof.
  intros Hf. induction js as [|j js IH]; simpl; [reflexivity|].
  rewrite IH. destruct (Nat.eqb (job_id j) i); rewrite ?Hf; reflexivity.
Qed.

Lemma lookup_job_update (i : nat) (f : job -> job) (js : list job) :
  (forall j, job_id (f j) = job_id j) ->
  lookup_job i (map (fun j' => if Nat.eqb (job_id j') i then f j' else j') js)
  = option_map f (lookup_job i js).
Proof.
  intros Hf. induction js as [|j js IH]; simpl; [reflexivity|].
  destruct (Nat.eqb (job_id j) i) eqn:E; simpl.
  - rewrite Hf, E. reflexivity.
  - rewrite E. exact IH.
Qed.

Lemma map_ids_filter (i : nat) (js : list job) :
  map job_id (filter (fun j => negb (Nat.eqb (job_id j) i)) js)
  = filter (fun x => negb (Nat.eqb x i)) (map job_id js).
Proof.
  induction js as [|j js IH]; simpl; [reflexivity|].
  destruct (negb (Nat.eqb (job_id j) i)); simpl; rewrite IH; reflexivity.
Qed.

Lemma launch_cases (p : dict) (s s' : state) (o : exn + nat) :
  launch p s = (o, s') ->
  (o = inr (next_id s) /\
   lookup_job (next_id s) (jobs s) = None /\
   s' = mkState (jobs s ++ [mkJob (next_id s) Pending None None None None p])
                (S (next_id s)) (queue s ++ [(next_id s, p)]) (clock s)) \/
  (exists e, o = inl e /\ s' = s).
Proof.
  unfold launch, bind, get_state, put_state, ret, registry_insert.
  cbv beta iota zeta. simpl job_id.
  destruct (lookup_job (next_id s) (jobs s)) eqn:E; intros H;
    injection H as <- <-; [right; eauto | left; auto].
Qed.

Lemma registry_update_frame (i : nat) (f : job -> job) (s s' : state) (r : exn + unit) :
  (forall j, job_id (f j) = job_id j) ->
  registry_update i f s = (r, s') ->
  ids s' = ids s /\ next_id s' = next_id s /\ queue s' = queue s.
Proof.
  intros Hf. unfold registry_update.
  destruct (lookup_job i (jobs s)); [destruct (Nat.ltb _ _)|];
    intros H; injection H as <- <-; auto.
  unfold ids, set_jobs. simpl. rewrite map_ids_update by exact Hf. auto.
Qed.

Lemma take_queued_incl (i : nat) (q q' : list (nat * dict)) (p : dict) :
  take_queued i q = Some (p, q') -> forall x, In x q' -> In x q.
Proof.
  revert q'. induction q as [|[i' p'] q IH]; simpl; intros q'; [discriminate|].
  destruct (Nat.eqb i' i).
  - intros H. injection H as _ <-. auto.
  - destruct (take_queued i q) as [[p'' q'']|]; [|discriminate].
    intros H. injection H as -> <-. intros x [Hx|Hx]; [auto|].
    right. exact (IH q'' eq_refl x Hx).
Qed.

Lemma worker_start_frame (i wid : nat) (s s' : state) (r : exn + dict) :
  worker_start i wid s = (r, s') ->
  ids s' = ids s /\ next_id s' = next_id s /\
  (forall x, In x (queue s') -> In x (queue s)).
Proof.
  unfold worker_start, bind, get_state, put_state, ret, raise.
  destruct (take_queued i (queue s)) as [[p q]|] eqn:Hq.
  - destruct (registry_update i _ _) as [ru s1] eqn:Hu.
    apply registry_update_frame in Hu; [|reflexivity].
    destruct Hu as (Hids & Hnext & Hqueue). simpl in *.
    pose proof (take_queued_incl i (queue s) q p Hq) as Hin.
    destruct ru; intros H; injection H as _ <-;
      rewrite Hids, Hnext, Hqueue; unfold ids; simpl; auto.
  - intros H. injection H as _ <-. auto.
Qed.

Lemma worker_finish_frame (i : nat) (o : exn + value) (s s' : state) (r : exn + unit) :
  worker_finish i o s = (r, s') ->
  ids s' = ids s /\ next_id s' = next_id s /\ queue s' = queue s.
Proof.
  unfold worker_finish, bind, get_state.
  destruct o; apply registry_update_frame; reflexivity.
Qed.

Lemma registry_delete_cases (i : nat) (s s' : state) (r : exn + unit) :
  registry_delete i s = (r, s') ->
  (r = inr tt /\ In i (ids s) /\
   s' = set_jobs (filter (fun j => negb (Nat.eqb (job_id j) i)) (jobs s)) s) \/
  (exists e, r = inl e /\ s' = s).
Proof.
  unfold registry_delete.
  destruct (lookup_job i (jobs s)) as [j|] eqn:E; intros H; injection H as <- <-.
  - left. split; [reflexivity|]. split; [|reflexivity].
    exact (proj2 (lookup_job_Some _ _ _ E)).
  - right. eauto.
Qed.

End JobFacts.

(** ** Uniqueness of job ids under interleaving *)

Module InvariantFacts.
Import Jobs Concurrency JobFacts.

Lemma inv_init : inv [] init.
Proof.
  unfold inv, init, ids; simpl.
  repeat split; try constructor; intros; tauto.
Qed.

Lemma other_step_frame (s s' : state) :
  step s LOther s' ->
  ids s' = ids s /\ next_id s' = next_id s /\
  (forall x, In x (queue s') -> In x (queue s)).
Proof.
  intros H. inversion H; subst.
  - apply launch_cases in H0.
    destruct H0 as [(Heq & _) | (e' & _ & ->)]; [discriminate | auto].
  - exact (worker_start_frame _ _ _ _ _ H0).
  - destruct (worker_finish_frame _ _ _ _ _ H0) as (A & B & C).
    rewrite C. auto.
  - apply registry_delete_cases in H0.
    destruct H0 as [(Heq & _) | (e' & _ & ->)]; [discriminate | auto].
  - unfold ids. simpl. auto.
Qed.

Lemma NoDup_snoc (l : list nat) (x : nat) :
  NoDup l -> ~ In x l -> NoDup (l ++ [x]).
Proof.
  intros Hl Hx. apply NoDup_app; [exact Hl | repeat constructor; simpl; tauto |].
  intros a Ha [<- | []]. exact (Hx Ha).
Qed.

Lemma inv_step (ls : list label) (s s' : state) (l : label) :
  inv ls s -> step s l s' -> inv (l :: ls) s'.
Proof.
  intros (Hlt & Hnd & Hids & Hiff & Hdel & Hq) Hst.
  destruct l as [i | i |].
  - (* a launch *)
    inversion Hst as [p s0 s1 i0 Hl | | | | | |]; subst.
    apply launch_cases in Hl.
    destruct Hl as [(Heq & Hfresh & ->) | (e & Heq & _)]; [|discriminate].
    injection Heq as ->.
    assert (Hnotl : ~ In (next_id s) (launched ls)).
    { intros Hin. specialize (Hlt _ Hin). lia. }
    unfold inv, ids in *; simpl in *.
    rewrite map_app. simpl.
    split; [|split; [|split; [|split; [|split]]]].
    + intros x [<- | Hx]; [lia | specialize (Hlt _ Hx); lia].
    + constructor; assumption.
    + apply NoDup_snoc; [exact Hids | exact (proj1 (lookup_job_None _ _) Hfresh)].
    + intros x. split.
      * intros Hx. apply in_app_or in Hx as [Hx | [<- | []]].
        -- apply Hiff in Hx. tauto.
        -- split; [left; reflexivity|]. intros Hd. apply Hnotl, Hdel, Hd.
      * intros [Hx Hnd']. apply in_or_app. destruct Hx as [<- | Hx].
        -- right. left. reflexivity.
        -- left. apply Hiff. tauto.
    + intros x Hx. right. apply Hdel, Hx.
    + intros x p0 Hx. apply in_app_or in Hx as [Hx | [Hx | []]].
      * specialize (Hq _ _ Hx). lia.
      * injection Hx as <- _. lia.
  - (* a successful delete *)
    inversion Hst as [| | | | i0 s0 s1 Hd | |]; subst.
    apply registry_delete_cases in Hd.
    destruct Hd as [(_ & Hin & ->) | (e & Heq & _)]; [|discriminate].
    unfold inv, ids, set_jobs in *; simpl in *.
    rewrite map_ids_filter.
    split; [|split; [|split; [|split; [|split]]]].
    + exact Hlt.
    + exact Hnd.
    + apply NoDup_filter, Hids.
    + intros x. split.
      * intros Hx. apply filter_In in Hx as [Hx Hne].
        apply Hiff in Hx as [Hx1 Hx2]. split; [exact Hx1|].
        intros [<- | Hd]; [|tauto].
        rewrite Nat.eqb_refl in Hne. discriminate.
      * intros [Hx Hnd']. apply filter_In. split.
        -- apply Hiff. tauto.
        -- destruct (Nat.eqb x i) eqn:E; [|reflexivity].
           apply Nat.eqb_eq in E. subst. tauto.
    + intros x [<- | Hx].
      * apply Hiff in Hin. tauto.
      * apply Hdel, Hx.
    + exact Hq.
  - (* any other step *)
    destruct (other_step_frame _ _ Hst) as (Hi & Hn & Hqq).
    unfold inv; simpl. rewrite Hi, Hn.
    split; [|split; [|split; [|split; [|split]]]]; auto.
    intros i p Hx. apply (Hq i p), Hqq, Hx.
Qed.

Lemma run_inv (s0 s : state) (ls : list label) :
  run s0 ls s -> inv [] s0 -> inv ls s.
Proof.
  intros Hrun Hinit. induction Hrun as [s | s0 s s' ls l Hrun IH Hst].
  - exact Hinit.
  - exact (inv_step ls s s' l (IH Hinit) Hst).
Qed.

Lemma reachable_inv (ls : list label) (s : state) : run init ls s -> inv ls s.
Proof. intros H. exact (run_inv init s ls H inv_init). Qed.

End InvariantFacts.

(** ** Launching and running jobs *)

Module WorkerFacts.
Import Jobs Concurrency JobFacts InvariantFacts.

Lemma reachable_fresh (ls : list label) (s : state) :
  run init ls s -> lookup_job (next_id s) (jobs s) = None.
Proof.
  intros H. destruct (reachable_inv ls s H) as (Hlt & _ & _ & Hiff & _).
  apply lookup_job_None. intros Hin.
  apply Hiff in Hin as [Hin _]. specialize (Hlt _ Hin). lia.
Qed.

Lemma launch_fresh (p : dict) (s : state) :
  lookup_job (next_id s) (jobs s) = None ->
  launch p s
  = (inr (next_id s),
     mkState (jobs s ++ [mkJob (next_id s) Pending None None None None p])
             (S (next_id s)) (queue s ++ [(next_id s, p)]) (clock s)).
Proof.
  intros H. unfold launch, bind, get_state, put_state, ret, registry_insert.
  cbv beta iota zeta. simpl job_id. rewrite H. reflexivity.
Qed.

Lemma take_queued_last (i : nat) (p : dict) (q : list (nat * dict)) :
  (forall i' p', In (i', p') q -> i' <> i) ->
  take_queued i (q ++ [(i, p)]) = Some (p, q).
Proof.
  induction q as [|[i' p'] q IH]; intros H; simpl.
  - rewrite Nat.eqb_refl. reflexivity.
  - destruct (Nat.eqb i' i) eqn:E.
    + apply Nat.eqb_eq in E. exfalso. exact (H i' p' (or_introl eq_refl) E).
    + rewrite IH; [reflexivity|]. intros i0 p0 Hin. exact (H i0 p0 (or_intror Hin)).
Qed.

Lemma registry_update_ok (i : nat) (f : job -> job) (s : state) (j : job) :
  (forall j', job_id (f j') = job_id j') ->
  lookup_job i (jobs s) = Some j ->
  status_rank (job_status j) < status_rank (job_status (f j)) ->
  exists s',
    registry_update i f s = (inr tt, s') /\
    lookup_job i (jobs s') = Some (f j) /\
    next_id s' = next_id s /\ queue s' = queue s /\ clock s' = clock s.
Proof.
  intros Hf Hj Hlt. unfold registry_update. rewrite Hj.
  apply Nat.ltb_lt in Hlt. rewrite Hlt.
  eexists. split; [reflexivity|]. unfold set_jobs. simpl.
  rewrite lookup_job_update by exact Hf. rewrite Hj. auto.
Qed.

Lemma worker_start_pending (i wid : nat) (s : state) (p : dict) (q : list (nat * dict)) (j : job) :
  take_queued i (queue s) = Some (p, q) ->
  lookup_job i (jobs s) = Some j ->
  job_status j = Pending ->
  exists s' j',
    worker_start i wid s = (inr p, s') /\
    lookup_job i (jobs s') = Some j' /\ job_status j' = Running.
Proof.
  intros Hq Hj Hst.
  unfold worker_start, bind at 1, get_state. rewrite Hq.
  unfold bind at 1, put_state.
  destruct (registry_update_ok i (fun j0 =>
             mkJob (job_id j0) Running (Some (clock s)) (end_date j0) (Some wid)
                   (error_info j0) (payload_reference j0))
             (mkState (jobs s) (next_id s) q (clock s)) j)
    as (s' & Hu & Hl & _); [reflexivity | exact Hj | rewrite Hst; simpl; lia |].
  unfold bind. rewrite Hu. do 2 eexists. split; [reflexivity|]. split; [exact Hl|].
  reflexivity.
Qed.

Lemma worker_finish_failed (i : nat) (e : exn) (s : state) (j : job) :
  lookup_job i (jobs s) = Some j ->
  job_status j = Running ->
  exists s' j',
    worker_finish i (inl e) s = (inr tt, s') /\
    lookup_job i (jobs s') = Some j' /\ job_status j' = Failed /\
    error_info j' = Some (exn_text e) /\ end_date j' = Some (clock s).
Proof.
  intros Hj Hst. unfold worker_finish, bind, get_state.
  destruct (registry_update_ok i (fun j0 =>
             mkJob (job_id j0) Failed (start_date j0) (Some (clock s)) (worker_id j0)
                   (Some (exn_text e)) (payload_reference j0)) s j)
    as (s' & Hu & Hl & _); [reflexivity | exact Hj | rewrite Hst; simpl; lia |].
  rewrite Hu. do 2 eexists. split; [reflexivity|]. split; [exact Hl|]. auto.
Qed.

End WorkerFacts.

(** ** The execution wrapper and failure reporting *)

Module JobClaims.
Import Jobs Concurrency JobFacts InvariantFacts WorkerFacts.

(** C5: in any reachable state, the execution wrapper with the background
    indicator absent is exactly the handler (same result, same state, no
    record of its own); with the indicator present it does not run the
    handler but inserts one pending record under the next id, queues the job
    for its worker and returns that id at once. *)
Theorem execute_in_background_modes (flag : string) (h : handler) (p : dict)
    (ls : list label) (s : state) :
  run init ls s ->
  (dict_in flag p = false -> execute_in_background flag h p s = h p s) /\
  (dict_in flag p = true ->
   execute_in_background flag h p s
   = (inr (VInt (Z.of_nat (next_id s))),
      mkState (jobs s ++ [mkJob (next_id s) Pending None None None None p])
              (S (next_id s)) (queue s ++ [(next_id s, p)]) (clock s))).
Proof.
  intros Hrun. split; intros Hflag; unfold execute_in_background; rewrite Hflag.
  - reflexivity.
  - unfold bind. rewrite launch_fresh by exact (reachable_fresh ls s Hrun).
    reflexivity.
Qed.

(** C6: a background launch answers its caller with the job id whatever the
    handler does; when the handler raises [e] (and, like every callable,
    writes the registry only through its operations), the job's worker
    finishes normally and the failure is found only in the job record:
    status [Failed], [error_info] the text of [e], [end_date] set. *)
Theorem background_failure_recorded (flag : string) (h : handler) (p : dict)
    (e : exn) (wid : nat) (ls : list label) (s : state) :
  run init ls s ->
  dict_in flag p = true ->
  (forall s1, exists s2, h p s1 = (inl e, s2) /\ jobs s2 = jobs s1) ->
  exists s1,
    execute_in_background flag h p s = (inr (VInt (Z.of_nat (next_id s))), s1) /\
    exists s2 j,
      run_worker h wid (next_id s) s1 = (inr tt, s2) /\
      lookup_job (next_id s) (jobs s2) = Some j /\
      job_status j = Failed /\
      error_info j = Some (exn_text e) /\
      end_date j <> None.
Proof.
  intros Hrun Hflag Hh.
  destruct (execute_in_background_modes flag h p ls s Hrun) as [_ Hbg].
  rewrite (Hbg Hflag). eexists. split; [reflexivity|].
  pose proof (reachable_fresh ls s Hrun) as Hfresh.
  destruct (reachable_inv ls s Hrun) as (_ & _ & _ & _ & _ & Hq).
  set (i := next_id s) in *.
  set (s1 := mkState (jobs s ++ [mkJob i Pending None None None None p])
                     (S i) (queue s ++ [(i, p)]) (clock s)).
  assert (Htake : take_queued i (queue s1) = Some (p, queue s)).
  { apply take_queued_last. intros i' p' Hin. specialize (Hq _ _ Hin). lia. }
  assert (Hl1 : lookup_job i (jobs s1) = Some (mkJob i Pending None None None None p)).
  { simpl. rewrite lookup_job_app_last by exact Hfresh. simpl.
    rewrite Nat.eqb_refl. reflexivity. }
  destruct (worker_start_pending i wid s1 p (queue s) _ Htake Hl1 eq_refl)
    as (s2 & j2 & Hstart & Hl2 & Hst2).
  destruct (Hh s2) as (s3 & Hrun3 & Hjobs3).
  assert (Hl3 : lookup_job i (jobs s3) = Some j2) by (rewrite Hjobs3; exact Hl2).
  destruct (worker_finish_failed i e s3 j2 Hl3 Hst2)
    as (s4 & j4 & Hfin & Hl4 & Hst4 & Herr4 & Hend4).
  exists s4, j4. split.
  - unfold run_worker, bind at 1. rewrite Hstart.
    unfold bind, try_catch. rewrite Hrun3. exact Hfin.
  - split; [exact Hl4|]. split; [exact Hst4|]. split; [exact Herr4|].
    rewrite Hend4. discriminate.
Qed.

(** C7 (amended): along any interleaving of launches, worker steps and
    deletes from the empty registry, launched ids are pairwise distinct (an
    id is never handed out twice), registry ids are pairwise distinct, every
    record belongs to a launched job, each launched job has at most one
    record, and exactly one as long as it has not been deleted. *)
Theorem job_ids_unique (ls : list label) (s : state) :
  run init ls s ->
  NoDup (launched ls) /\
  NoDup (ids s) /\
  (forall i, In i (ids s) -> In i (launched ls)) /\
  (forall i, count_occ Nat.eq_dec (ids s) i <= 1) /\
  (forall i, In i (launched ls) -> ~ In i (deleted ls) ->
             count_occ Nat.eq_dec (ids s) i = 1).
Proof.
  intros Hrun.
  destruct (reachable_inv ls s Hrun) as (_ & Hnd & Hids & Hiff & _ & _).
  split; [exact Hnd|]. split; [exact Hids|]. split.
  - intros i Hi. apply Hiff in Hi. tauto.
  - split.
    + apply NoDup_count_occ, Hids.
    + intros i Hl Hd. apply (NoDup_count_occ' Nat.eq_dec); [exact Hids|].
      apply Hiff. tauto.
Qed.

(** C7: as stated the claim fails: a launched job that is then deleted
    (deletion is allowed in any status) has no record at all. *)
Lemma launched_job_without_record :
  run init [LDelete 0; LLaunch 0] (mkState [] 1 [(0, [])] 0) /\
  In 0 (launched [LDelete 0; LLaunch 0]) /\
  count_occ Nat.eq_dec (ids (mkState [] 1 [(0, [])] 0)) 0 = 0.
Proof.
  split; [|split; [simpl; auto | reflexivity]].
  apply (run_cons init (mkState [mkJob 0 Pending None None None None []] 1 [(0, [])] 0)).
  - apply (run_cons init init); [apply run_nil|].
    apply (step_launch []). reflexivity.
  - apply step_delete. reflexivity.
Qed.

End JobClaims.

(** ** The theorems at concrete inputs *)

Lemma fit_propagates_job_id_witness :
  dict_get "model"
    [("job_id", VInt 7);
     ("model", VDict [("id", VStr "m1"); ("fitting_parameters", VDict [("epochs", VInt 3)])])]
  = Some (VDict [("id", VStr "m1"); ("fitting_parameters", VDict [("epochs", VInt 3)])]) /\
  ((exists parameters' s',
      Controller.fit unit (fun _ => ret tt) (fun _ _ => ret VNone) (fun v => ret v)
        (fun h => h)
        [("job_id", VInt 7);
         ("model", VDict [("id", VStr "m1");
                          ("fitting_parameters", VDict [("epochs", VInt 3)])])]
        Concurrency.init
      = Controller.fit_body unit (fun _ => ret tt) (fun _ _ => ret VNone) parameters' s' /\
      get_path3 parameters' "model" "fitting_parameters" "job_id" = Some (VInt 7)) \/
   (exists f e s',
      dict_get "filter" [("epochs", VInt 3)] = Some f /\
      (fun v => ret v) f Concurrency.init = (inl e, s') /\
      Controller.fit unit (fun _ => ret tt) (fun _ _ => ret VNone) (fun v => ret v)
        (fun h => h)
        [("job_id", VInt 7);
         ("model", VDict [("id", VStr "m1");
                          ("fitting_parameters", VDict [("epochs", VInt 3)])])]
        Concurrency.init = (inl e, s'))).
Proof.
  split; [reflexivity|].
  exact (fit_propagates_job_id unit (fun _ => ret tt) (fun _ _ => ret VNone)
           (fun v => ret v) (fun h => h)
           [("job_id", VInt 7);
            ("model", VDict [("id", VStr "m1");
                             ("fitting_parameters", VDict [("epochs", VInt 3)])])]
           Concurrency.init
           [("id", VStr "m1"); ("fitting_parameters", VDict [("epochs", VInt 3)])]
           [("epochs", VInt 3)] (VInt 7) eq_refl eq_refl eq_refl).
Defined.

Lemma model_check_precedes_body_witness :
  get_truthy "model" [("model", VDict [])] = false /\
  Controller.predict unit (fun _ => ret tt) (fun _ _ => ret VNone)
    [("model", VDict [])] Concurrency.init
  = (inl (ParameterNotFoundException "model"), Concurrency.init).
Proof.
  split; [reflexivity|].
  destruct (model_check_precedes_body unit (fun _ => ret tt) (fun _ _ => ret VNone)
              (fun _ _ => ret VNone) (fun _ _ => ret VNone) (fun _ => ret VNone)
              (fun _ => ret VNone) (fun v => ret v) (fun h => h)
              [("model", VDict [])] Concurrency.init eq_refl)
    as (_ & _ & Hpredict & _).
  exact Hpredict.
Defined.

Lemma predict_requires_inputs_witness :
  get_truthy "model" [("model", VDict [("id", VStr "m1")])] = true /\
  dict_in "inputs" [("model", VDict [("id", VStr "m1")])] = false /\
  Controller.predict unit (fun _ => ret tt) (fun _ _ => ret VNone)
    [("model", VDict [("id", VStr "m1")])] Concurrency.init
  = (inl (ParameterNotFoundException "inputs"), Concurrency.init).
Proof.
  split; [reflexivity|]. split; [reflexivity|].
  exact (predict_requires_inputs unit (fun _ => ret tt) (fun _ _ => ret VNone)
           [("model", VDict [("id", VStr "m1")])] Concurrency.init eq_refl eq_refl).
Defined.

Lemma jobs_delete_delegates_and_reports_witness :
  exists action,
    assoc "jobs_delete"
      (JobActions.get_actions (fun _ => ret VNone) Jobs.delete_background_job)
    = Some action /\
    action [("id", VInt (-1))]
      (mkState [mkJob 0 Pending None None None None []] 1 [] 0)
    = (inr (Jobs.reported_error (NotFoundError (VInt (-1)))),
       mkState [mkJob 0 Pending None None None None []] 1 [] 0).
Proof.
  exact (proj2 jobs_delete_delegates_and_reports (fun _ => ret VNone)
           [("id", VInt (-1))] (mkState [mkJob 0 Pending None None None None []] 1 [] 0)
           (VInt (-1)) eq_refl
           ltac:(intros j [<-|[]]; simpl; discriminate)).
Defined.

Lemma model_without_id_raises_witness :
  get_truthy "id" [("name", VStr "m")] = false /\
  Controller.predict unit (fun _ => ret tt) (fun _ _ => ret VNone)
    [("model", VDict [("name", VStr "m")]); ("inputs", VList [])] Concurrency.init
  = (inl (ModelException "id"), Concurrency.init).
Proof.
  split; [reflexivity|].
  destruct (model_without_id_raises unit (fun _ => ret tt) (fun _ _ => ret VNone)
              (fun _ _ => ret VNone) (fun _ _ => ret VNone) (fun _ => ret VNone)
              (fun _ => ret VNone) (fun _ => ret VNone) (fun v => ret v)
              [("name", VStr "m")] eq_refl) as [_ Hops].
  destruct (Hops [("model", VDict [("name", VStr "m")]); ("inputs", VList [])]
              Concurrency.init eq_refl) as [_ [Hchecked _]].
  assert (Hne : [("name", VStr "m")] <> []) by discriminate.
  exact (proj1 (Hchecked Hne) eq_refl).
Defined.

Lemma execute_in_background_modes_witness :
  Concurrency.run Concurrency.init [] Concurrency.init /\
  Jobs.execute_in_background "background" (fun _ => ret VNone)
    [("background", VBool true)] Concurrency.init
  = (inr (VInt 0),
     mkState [mkJob 0 Pending None None None None [("background", VBool true)]]
             1 [(0, [("background", VBool true)])] 0).
Proof.
  split; [apply Concurrency.run_nil|].
  exact (proj2 (JobClaims.execute_in_background_modes "background" (fun _ => ret VNone)
                  [("background", VBool true)] [] Concurrency.init
                  (Concurrency.run_nil Concurrency.init)) eq_refl).
Defined.

Lemma background_failure_recorded_witness :
  Concurrency.run Concurrency.init [] Concurrency.init /\
  dict_in "background" [("background", VBool true)] = true /\
  exists s1,
    Jobs.execute_in_background "background" (fun _ => raise (RuntimeError "disk full"))
      [("background", VBool true)] Concurrency.init = (inr (VInt 0), s1) /\
    exists s2 j,
      Jobs.run_worker (fun _ => raise (RuntimeError "disk full")) 1 0 s1 = (inr tt, s2) /\
      Jobs.lookup_job 0 (jobs s2) = Some j /\
      job_status j = Failed /\
      error_info j = Some "disk full" /\
      end_date j <> None.
Proof.
  split; [apply Concurrency.run_nil|]. split; [reflexivity|].
  exact (JobClaims.background_failure_recorded "background"
           (fun _ => raise (RuntimeError "disk full")) [("background", VBool true)]
           (RuntimeError "disk full") 1 [] Concurrency.init
           (Concurrency.run_nil Concurrency.init) eq_refl
           (fun s1 => ex_intro _ s1 (conj eq_refl eq_refl))).
Defined.

Lemma job_ids_unique_witness :
  Concurrency.run Concurrency.init [Concurrency.LLaunch 1; Concurrency.LLaunch 0]
    (mkState [mkJob 0 Pending None None None None []; mkJob 1 Pending None None None None []]
             2 [(0, []); (1, [])] 0) /\
  NoDup (Concurrency.launched [Concurrency.LLaunch 1; Concurrency.LLaunch 0]).
Proof.
  assert (Hrun : Concurrency.run Concurrency.init
                   [Concurrency.LLaunch 1; Concurrency.LLaunch 0]
                   (mkState [mkJob 0 Pending None None None None [];
                             mkJob 1 Pending None None None None []]
                            2 [(0, []); (1, [])] 0)).
  { apply (Concurrency.run_cons Concurrency.init
             (mkState [mkJob 0 Pending None None None None []] 1 [(0, [])] 0)).
    - apply (Concurrency.run_cons Concurrency.init Concurrency.init);
        [apply Concurrency.run_nil|].
      apply (Concurrency.step_launch []). reflexivity.
    - apply (Concurrency.step_launch []). reflexivity. }
  split; [exact Hrun|].
  exact (proj1 (JobClaims.job_ids_unique _ _ Hrun)).
Defined.

(** ** Further properties of the model controller *)

Section ControllerPaths.

Variable Model : Type.
Variable model_class : value -> M Model.
Variable model_fit : Model -> value -> M value.
Variable model_predict : Model -> value -> M value.
Variable model_initialize : Model -> value -> M value.
Variable model_drop : Model -> M value.
Variable model_get_info : Model -> M value.
Variable model_drop_fitting : Model -> M value.
Variable fitting_filter : value -> M value.
Variable execute_in_background : handler -> handler.

Lemma model_dict_truthy (parameters model : dict) (i : value) :
  dict_get "model" parameters = Some (VDict model) ->
  dict_get "id" model = Some i ->
  get_truthy "model" parameters = true.
Proof.
  intros Hm Hi. unfold get_truthy. rewrite Hm.
  destruct model; [discriminate Hi | reflexivity].
Qed.

Lemma get_model_with_id (model : dict) (i : value) (s : state) :
  dict_get "id" model = Some i -> truthy i = true ->
  Controller._get_model Model model_class (VDict model) s = model_class i s.
Proof.
  intros Hi Ht. unfold Controller._get_model, get_truthy.
  rewrite Hi, Ht. cbv [negb bind getitem_d ret]. rewrite Hi. reflexivity.
Qed.

(** [_get_model] builds the model from exactly [input_model['id']] when that
    entry is truthy, and a non-dict [input_model] fails on [.get]. *)
Theorem get_model_uses_id (model : dict) (i : value) (s : state) :
  dict_get "id" model = Some i ->
  truthy i = true ->
  Controller._get_model Model model_class (VDict model) s = model_class i s /\
  (forall v, match v with VDict _ => False | _ => True end ->
   Controller._get_model Model model_class v s = (inl AttributeError, s)).
Proof.
  intros Hi Ht. split; [apply get_model_with_id; assumption|].
  intros [] Hv; simpl in Hv; try contradiction; reflexivity.
Qed.

(** [initialize] and [drop] refuse a request whose ['db'] entry is missing or
    falsy with [ParameterNotFoundException('db')], before the model is
    built: the state is unchanged for every model class. *)
Theorem initialize_drop_require_db (parameters : dict) (s : state) :
  get_truthy "model" parameters = true ->
  get_truthy "db" parameters = false ->
  Controller.initialize Model model_class model_initialize parameters s
  = (inl (ParameterNotFoundException "db"), s) /\
  Controller.drop Model model_class model_drop parameters s
  = (inl (ParameterNotFoundException "db"), s).
Proof.
  intros Hm Hdb. split.
  - cbv [Controller.initialize Controller._check_input_parameters
         Controller.initialize_body negb].
    rewrite Hm, Hdb. reflexivity.
  - cbv [Controller.drop Controller._check_input_parameters
         Controller.drop_body negb].
    rewrite Hm, Hdb. reflexivity.
Qed.

(** With a model dict holding a truthy ['id'] and the request's ['inputs'],
    [predict] is: build the model from that id, then call its [predict] on
    [parameters['inputs']]. *)
Theorem predict_happy_path (parameters model : dict) (i inputs : value) (s : state) :
  dict_get "model" parameters = Some (VDict model) ->
  dict_get "id" model = Some i ->
  truthy i = true ->
  dict_get "inputs" parameters = Some inputs ->
  Controller.predict Model model_class model_predict parameters s
  = (m <- model_class i ;; model_predict m inputs) s.
Proof.
  intros Hm Hi Ht Hin.
  pose proof (model_dict_truthy _ _ _ Hm Hi) as Hmt.
  cbv [Controller.predict Controller._check_input_parameters
       Controller.predict_body bind ret getitem_d negb dict_in].
  rewrite Hmt, Hin, Hm, (get_model_with_id model i) by assumption. reflexivity.
Qed.

(** With a truthy ['db'], [initialize] builds the model from its ['id'] and
    hands the whole ['model'] dict to the model's [initialize]. *)
Theorem initialize_happy_path (parameters model : dict) (i : value) (s : state) :
  dict_get "model" parameters = Some (VDict model) ->
  dict_get "id" model = Some i ->
  truthy i = true ->
  get_truthy "db" parameters = true ->
  Controller.initialize Model model_class model_initialize parameters s
  = (m <- model_class i ;; model_initialize m (VDict model)) s.
Proof.
  intros Hm Hi Ht Hdb.
  pose proof (model_dict_truthy _ _ _ Hm Hi) as Hmt.
  cbv [Controller.initialize Controller._check_input_parameters
       Controller.initialize_body bind ret getitem_d negb].
  rewrite Hmt, Hdb, Hm, (get_model_with_id model i) by assumption.
  destruct (model_class i s) as [[e|m] s']; reflexivity.
Qed.

(** [drop] (with a truthy ['db']), [get_info] and [drop_fitting] build the
    model from its ['id'] and call the matching model method with no
    further argument. *)
Theorem drop_get_info_drop_fitting_happy_paths
    (parameters model : dict) (i : value) (s : state) :
  dict_get "model" parameters = Some (VDict model) ->
  dict_get "id" model = Some i ->
  truthy i = true ->
  (get_truthy "db" parameters = true ->
   Controller.drop Model model_class model_drop parameters s
   = (m <- model_class i ;; model_drop m) s) /\
  Controller.get_info Model model_class model_get_info parameters s
  = (m <- model_class i ;; model_get_info m) s /\
  Controller.drop_fitting Model model_class model_drop_fitting parameters s
  = (m <- model_class i ;; model_drop_fitting m) s.
Proof.
  intros Hm Hi Ht.
  pose proof (model_dict_truthy _ _ _ Hm Hi) as Hmt.
  split; [|split].
  - intros Hdb.
    cbv [Controller.drop Controller._check_input_parameters
         Controller.drop_body bind ret getitem_d negb].
    rewrite Hmt, Hdb, Hm, (get_model_with_id model i) by assumption. reflexivity.
  - cbv [Controller.get_info Controller._check_input_parameters
         Controller.get_info_body bind ret getitem_d negb].
    rewrite Hmt, Hm, (get_model_with_id model i) by assumption. reflexivity.
  - cbv [Controller.drop_fitting bind ret getitem_d].
    rewrite Hm, (get_model_with_id model i) by assumption. reflexivity.
Qed.

(** [drop_fitting] has no [_check_input_parameters]: a request without
    ['model'] fails with [KeyError('model')], and an empty model dict gets
    [ModelException] from [_get_model] instead of
    [ParameterNotFoundException]; the state is unchanged in both cases. *)
Theorem drop_fitting_unchecked (parameters : dict) (s : state) :
  (dict_get "model" parameters = None ->
   Controller.drop_fitting Model model_class model_drop_fitting parameters s
   = (inl (KeyError "model"), s)) /\
  (dict_get "model" parameters = Some (VDict []) ->
   Controller.drop_fitting Model model_class model_drop_fitting parameters s
   = (inl (ModelException "id"), s)).
Proof.
  split; intros Hm; cbv [Controller.drop_fitting bind ret getitem_d raise];
    rewrite Hm; reflexivity.
Qed.

End ControllerPaths.

(** ** Further properties of the fitting transform *)

Section FittingTransform.

Variable Model : Type.
Variable model_class : value -> M Model.
Variable model_fit : Model -> value -> M value.
Variable fitting_filter : value -> M value.
Variable execute_in_background : handler -> handler.

Lemma eqb_false_of_neq (a b : string) : a <> b -> String.eqb a b = false.
Proof. intros H. apply String.eqb_neq. exact H. Qed.

(** [_transform_model_parameters_for_fitting] changes nothing but
    [parameters['model']['fitting_parameters']], and there only two keys: a
    ['filter'] entry is replaced by the conversion of its old value, and
    ['job_id'] is set to the top-level ['job_id'] when the request has one;
    every other key keeps its value, and the handler is called once with the
    result, in the state the conversion left. *)
Theorem transform_effect (func : handler) (parameters model fp : dict) (s : state) :
  dict_get "model" parameters = Some (VDict model) ->
  dict_get "fitting_parameters" model = Some (VDict fp) ->
  (forall f, dict_get "filter" fp = Some f -> exists v s', fitting_filter f s = (inr v, s')) ->
  exists fp' s',
    Controller._transform_model_parameters_for_fitting fitting_filter func parameters s
    = func (dict_set "model" (VDict (dict_set "fitting_parameters" (VDict fp') model))
              parameters) s' /\
    (forall k, k <> "filter" -> k <> "job_id" -> dict_get k fp' = dict_get k fp) /\
    dict_get "job_id" fp'
      = match dict_get "job_id" parameters with
        | Some j => Some j
        | None => dict_get "job_id" fp
        end /\
    match dict_get "filter" fp with
    | Some f => exists v, fitting_filter f s = (inr v, s') /\ dict_get "filter" fp' = Some v
    | None => dict_get "filter" fp' = None /\ s' = s
    end.
Proof.
  intros Hm Hfp Hconv.
  cbv [Controller._transform_model_parameters_for_fitting bind ret
       getitem_d getitem py_in dict_in negb].
  rewrite Hm, Hfp.
  destruct (dict_get "filter" fp) as [f|] eqn:Hf.
  - destruct (Hconv f eq_refl) as (v & s1 & Hv). rewrite Hv.
    rewrite (set3_dicts parameters _ _ _ _ model fp s1 Hm Hfp).
    rewrite dict_get_set_other by reflexivity.
    destruct (dict_get "job_id" parameters) as [j|] eqn:Hj.
    + rewrite (set3_dicts _ _ _ _ _ (dict_set "fitting_parameters"
                 (VDict (dict_set "filter" v fp)) model) (dict_set "filter" v fp) s1)
        by (rewrite dict_get_set_same; reflexivity).
      rewrite !dict_set_twice.
      exists (dict_set "job_id" j (dict_set "filter" v fp)), s1.
      split; [reflexivity|]. split; [|split].
      * intros k Hk1 Hk2.
        rewrite !dict_get_set_other by (apply eqb_false_of_neq; assumption).
        reflexivity.
      * apply dict_get_set_same.
      * exists v. split; [reflexivity|].
        rewrite dict_get_set_other by reflexivity. apply dict_get_set_same.
    + exists (dict_set "filter" v fp), s1.
      split; [reflexivity|]. split; [|split].
      * intros k Hk1 Hk2.
        rewrite dict_get_set_other by (apply eqb_false_of_neq; assumption).
        reflexivity.
      * rewrite dict_get_set_other by reflexivity. reflexivity.
      * exists v. split; [reflexivity|]. apply dict_get_set_same.
  - destruct (dict_get "job_id" parameters) as [j|] eqn:Hj.
    + rewrite (set3_dicts parameters _ _ _ _ model fp s Hm Hfp).
      exists (dict_set "job_id" j fp), s.
      split; [reflexivity|]. split; [|split].
      * intros k Hk1 Hk2.
        rewrite dict_get_set_other by (apply eqb_false_of_neq; assumption).
        reflexivity.
      * apply dict_get_set_same.
      * split; [|reflexivity].
        rewrite dict_get_set_other by reflexivity. exact Hf.
    + exists fp, s.
      rewrite (dict_set_get _ _ _ Hfp), (dict_set_get _ _ _ Hm).
      split; [reflexivity|]. split; [|split]; auto.
Qed.

(** [fit] on a truthy model dict without ['fitting_parameters'] raises
    [ParameterNotFoundException('fitting_parameters')] in the state it
    started from, whatever the background wrapper and the filter class. *)
Theorem fit_requires_fitting_parameters (parameters model : dict) (s : state) :
  dict_get "model" parameters = Some (VDict model) ->
  model <> [] ->
  dict_in "fitting_parameters" model = false ->
  Controller.fit Model model_class model_fit fitting_filter execute_in_background
    parameters s
  = (inl (ParameterNotFoundException "fitting_parameters"), s).
Proof.
  intros Hm Hne Hin.
  assert (Ht : get_truthy "model" parameters = true).
  { unfold get_truthy. rewrite Hm. destruct model; [congruence | reflexivity]. }
  unfold Controller.fit, Controller._check_input_parameters. rewrite Ht.
  cbv [negb Controller._transform_model_parameters_for_fitting bind ret
       getitem_d py_in].
  rewrite Hm, Hin. reflexivity.
Qed.

(** A ['fitting_parameters'] entry that is [None], a bool or a number makes
    [fit] fail with [TypeError] on the test ['filter' in ...], before any
    conversion or handler call and in the state it started from. *)
Theorem fit_scalar_fitting_parameters (parameters model : dict) (fpv : value) (s : state) :
  dict_get "model" parameters = Some (VDict model) ->
  dict_get "fitting_parameters" model = Some fpv ->
  match fpv with VNone | VBool _ | VInt _ => True | _ => False end ->
  Controller.fit Model model_class model_fit fitting_filter execute_in_background
    parameters s
  = (inl TypeError, s).
Proof.
  intros Hm Hfp Hscalar.
  assert (Ht : get_truthy "model" parameters = true).
  { unfold get_truthy. rewrite Hm. destruct model; [discriminate Hfp | reflexivity]. }
  unfold Controller.fit, Controller._check_input_parameters. rewrite Ht.
  cbv [negb Controller._transform_model_parameters_for_fitting bind ret
       getitem_d getitem py_in dict_in].
  rewrite Hm, Hfp.
  destruct fpv; simpl in Hscalar; try contradiction; reflexivity.
Qed.

(** With a wrapper that runs the body in place, [fit] on a request with a
    ['job_id'] and a ['fitting_parameters'] dict without ['filter'] builds
    the model from its ['id'] and calls the model's [fit] on the fitting
    parameters extended with that ['job_id']. *)
Theorem fit_synchronous_path (parameters model fp : dict) (i j : value) (s : state) :
  dict_get "model" parameters = Some (VDict model) ->
  dict_get "fitting_parameters" model = Some (VDict fp) ->
  dict_get "filter" fp = None ->
  dict_get "job_id" parameters = Some j ->
  dict_get "id" model = Some i ->
  truthy i = true ->
  Controller.fit Model model_class model_fit fitting_filter (fun h => h) parameters s
  = (m <- model_class i ;; model_fit m (VDict (dict_set "job_id" j fp))) s.
Proof.
  intros Hm Hfp Hf Hj Hi Ht.
  unfold Controller.fit, Controller._check_input_parameters.
  rewrite (model_dict_truthy _ _ _ Hm Hi).
  cbv [negb Controller._transform_model_parameters_for_fitting bind ret
       getitem_d getitem py_in dict_in].
  rewrite Hm, Hfp, Hf, Hj.
  rewrite (set3_dicts parameters _ _ _ _ model fp s Hm Hfp).
  set (model' := dict_set "fitting_parameters" (VDict (dict_set "job_id" j fp)) model).
  assert (Hi' : dict_get "id" model' = Some i).
  { unfold model'. rewrite dict_get_set_other by reflexivity. exact Hi. }
  cbv [Controller.fit_body bind ret getitem_d getitem py_in dict_in negb].
  rewrite dict_get_set_same, (get_model_with_id Model model_class model' i) by assumption.
  destruct (model_class i s) as [[e|mo] s1]; [reflexivity|].
  unfold model'. rewrite !dict_get_set_same. reflexivity.
Qed.

(** Without a ['filter'] entry and without a top-level ['job_id'], the
    fitting transform hands the request to the handler exactly as it came,
    in the same state. *)
Theorem transform_identity (func : handler) (parameters model fp : dict) (s : state) :
  dict_get "model" parameters = Some (VDict model) ->
  dict_get "fitting_parameters" model = Some (VDict fp) ->
  dict_get "filter" fp = None ->
  dict_get "job_id" parameters = None ->
  Controller._transform_model_parameters_for_fitting fitting_filter func parameters s
  = func parameters s.
Proof.
  intros Hm Hfp Hf Hj.
  cbv [Controller._transform_model_parameters_for_fitting bind ret
       getitem_d getitem py_in dict_in negb].
  rewrite Hm, Hfp, Hf, Hj. reflexivity.
Qed.

End FittingTransform.

(** ** Further theorems at concrete inputs *)

Lemma get_model_uses_id_witness :
  Controller._get_model unit (fun _ => ret tt) (VDict [("id", VStr "m1")]) Concurrency.init
  = (inr tt, Concurrency.init).
Proof.
  exact (proj1 (get_model_uses_id unit (fun _ => ret tt) [("id", VStr "m1")] (VStr "m1")
                  Concurrency.init eq_refl eq_refl)).
Defined.

Lemma initialize_drop_require_db_witness :
  Controller.initialize unit (fun _ => ret tt) (fun _ _ => ret VNone)
    [("model", VDict [("id", VStr "m1")]); ("db", VStr "")] Concurrency.init
  = (inl (ParameterNotFoundException "db"), Concurrency.init).
Proof.
  exact (proj1 (initialize_drop_require_db unit (fun _ => ret tt) (fun _ _ => ret VNone)
                  (fun _ => ret VNone)
                  [("model", VDict [("id", VStr "m1")]); ("db", VStr "")]
                  Concurrency.init eq_refl eq_refl)).
Defined.

Lemma predict_happy_path_witness :
  Controller.predict unit (fun _ => ret tt) (fun _ x => ret x)
    [("model", VDict [("id", VStr "m1")]); ("inputs", VInt 4)] Concurrency.init
  = (inr (VInt 4), Concurrency.init).
Proof.
  exact (predict_happy_path unit (fun _ => ret tt) (fun _ x => ret x)
           [("model", VDict [("id", VStr "m1")]); ("inputs", VInt 4)]
           [("id", VStr "m1")] (VStr "m1") (VInt 4) Concurrency.init
           eq_refl eq_refl eq_refl eq_refl).
Defined.

Lemma initialize_happy_path_witness :
  Controller.initialize unit (fun _ => ret tt) (fun _ x => ret x)
    [("model", VDict [("id", VStr "m1")]); ("db", VStr "main")] Concurrency.init
  = (inr (VDict [("id", VStr "m1")]), Concurrency.init).
Proof.
  exact (initialize_happy_path unit (fun _ => ret tt) (fun _ x => ret x)
           [("model", VDict [("id", VStr "m1")]); ("db", VStr "main")]
           [("id", VStr "m1")] (VStr "m1") Concurrency.init
           eq_refl eq_refl eq_refl eq_refl).
Defined.

Lemma drop_get_info_drop_fitting_happy_paths_witness :
  Controller.get_info unit (fun _ => ret tt) (fun _ => ret (VStr "info"))
    [("model", VDict [("id", VStr "m1")])] Concurrency.init
  = (inr (VStr "info"), Concurrency.init).
Proof.
  exact (proj1 (proj2 (drop_get_info_drop_fitting_happy_paths unit (fun _ => ret tt)
           (fun _ => ret VNone) (fun _ => ret (VStr "info")) (fun _ => ret VNone)
           [("model", VDict [("id", VStr "m1")])] [("id", VStr "m1")] (VStr "m1")
           Concurrency.init eq_refl eq_refl eq_refl))).
Defined.

Lemma drop_fitting_unchecked_witness :
  Controller.drop_fitting unit (fun _ => ret tt) (fun _ => ret VNone)
    [("db", VStr "main")] Concurrency.init
  = (inl (KeyError "model"), Concurrency.init).
Proof.
  exact (proj1 (drop_fitting_unchecked unit (fun _ => ret tt) (fun _ => ret VNone)
                  [("db", VStr "main")] Concurrency.init) eq_refl).
Defined.

Lemma transform_effect_witness :
  exists fp' s',
    Controller._transform_model_parameters_for_fitting (fun _ => ret (VStr "converted"))
      (fun _ => ret VNone)
      [("job_id", VInt 7);
       ("model", VDict [("fitting_parameters", VDict [("filter", VStr "raw")])])]
      Concurrency.init
    = ret VNone s' /\
    dict_get "filter" fp' = Some (VStr "converted") /\
    dict_get "job_id" fp' = Some (VInt 7).
Proof.
  destruct (transform_effect (fun _ => ret (VStr "converted")) (fun _ => ret VNone)
              [("job_id", VInt 7);
               ("model", VDict [("fitting_parameters", VDict [("filter", VStr "raw")])])]
              [("fitting_parameters", VDict [("filter", VStr "raw")])]
              [("filter", VStr "raw")] Concurrency.init eq_refl eq_refl
              (fun f _ => ex_intro _ (VStr "converted")
                            (ex_intro _ Concurrency.init eq_refl)))
    as (fp' & s' & Heq & _ & Hjob & (v & Hv & Hf)).
  exists fp', s'. split; [exact Heq|]. split; [|exact Hjob].
  injection Hv as <- _. exact Hf.
Defined.

Lemma fit_requires_fitting_parameters_witness :
  Controller.fit unit (fun _ => ret tt) (fun _ _ => ret VNone) (fun v => ret v) (fun h => h)
    [("model", VDict [("id", VStr "m1")])] Concurrency.init
  = (inl (ParameterNotFoundException "fitting_parameters"), Concurrency.init).
Proof.
  exact (fit_requires_fitting_parameters unit (fun _ => ret tt) (fun _ _ => ret VNone)
           (fun v => ret v) (fun h => h) [("model", VDict [("id", VStr "m1")])]
           [("id", VStr "m1")] Concurrency.init eq_refl ltac:(discriminate) eq_refl).
Defined.

Lemma fit_scalar_fitting_parameters_witness :
  Controller.fit unit (fun _ => ret tt) (fun _ _ => ret VNone) (fun v => ret v) (fun h => h)
    [("model", VDict [("fitting_parameters", VNone)])] Concurrency.init
  = (inl TypeError, Concurrency.init).
Proof.
  exact (fit_scalar_fitting_parameters unit (fun _ => ret tt) (fun _ _ => ret VNone)
           (fun v => ret v) (fun h => h) [("model", VDict [("fitting_parameters", VNone)])]
           [("fitting_parameters", VNone)] VNone Concurrency.init eq_refl eq_refl I).
Defined.

Lemma fit_synchronous_path_witness :
  Controller.fit unit (fun _ => ret tt) (fun _ fp => ret fp) (fun v => ret v) (fun h => h)
    [("job_id", VInt 7);
     ("model", VDict [("id", VStr "m1"); ("fitting_parameters", VDict [("epochs", VInt 3)])])]
    Concurrency.init
  = (inr (VDict [("epochs", VInt 3); ("job_id", VInt 7)]), Concurrency.init).
Proof.
  exact (fit_synchronous_path unit (fun _ => ret tt) (fun _ fp => ret fp) (fun v => ret v)
           [("job_id", VInt 7);
            ("model", VDict [("id", VStr "m1");
                             ("fitting_parameters", VDict [("epochs", VInt 3)])])]
           [("id", VStr "m1"); ("fitting_parameters", VDict [("epochs", VInt 3)])]
           [("epochs", VInt 3)] (VStr "m1") (VInt 7) Concurrency.init
           eq_refl eq_refl eq_refl eq_refl eq_refl eq_refl).
Defined.

Lemma transform_identity_witness :
  Controller._transform_model_parameters_for_fitting (fun v => ret v) (fun p => ret (VDict p))
    [("model", VDict [("fitting_parameters", VDict [("epochs", VInt 3)])])] Concurrency.init
  = (inr (VDict [("model", VDict [("fitting_parameters", VDict [("epochs", VInt 3)])])]),
     Concurrency.init).
Proof.
  exact (transform_identity (fun v => ret v) (fun p => ret (VDict p))
           [("model", VDict [("fitting_parameters", VDict [("epochs", VInt 3)])])]
           [("fitting_parameters", VDict [("epochs", VInt 3)])] [("epochs", VInt 3)]
           Concurrency.init eq_refl eq_refl eq_refl eq_refl).
Defined.
